(** * Rijksarbeidsvoorwaarden: the compensation formulas of the calculator page

    The repository is a SvelteKit page that looks up a monthly CAO amount
    for a (schaal, trede) pair and derives the yearly figures from it with
    reactive statements ([$: x = ...]).  Two versions of the page are in the
    sources:

    - [src/routes/+page.svelte], the older page, which has no hours
      selector and works with the take-home factor [0.919];
    - the hours-aware page (bundled after the README text), which adds
      [selectedUren], [scaleFactor], the employee/employer pension split,
      the income warning and the conditional five-day line.

    A reactive statement is a pure function of the variables it reads, so
    every [$:] line becomes a definition over those variables.

    Numbers.  A JavaScript [number] is an IEEE binary64 double.  The
    formulas are given in two readings.  Modules [Binary64] and
    [OlderBinary64] are the code as it runs: primitive doubles, each
    operation rounded, the decimal literals written as the doubles they
    round to.  Modules [HoursPage] and [OlderPage] are the same expressions
    read over the exact rationals [Q], where [0.081] is 81/1000 and equality
    of amounts is [Qeq] ([==]).  Statements that keep the order of the
    code's operations, inequalities and threshold tests are made on the
    exact reading; an equality that regroups the operations is true of the
    exact reading only, and is then stated as such, next to what the doubles
    do.  [formatCurrency] (whole-euro display) is presentation and is not
    modelled.

    Address.  Both pages read their selection from the query of the URL
    and write it back.  The query is held as its parsed list of name-value
    pairs; the values written are digits, a minus sign or [NaN], for which
    writing the query out and parsing it again changes nothing. *)

From Stdlib Require Import QArith Qfield PrimFloat.
From Stdlib Require Import SpecFloat FloatOps FloatAxioms.
From Stdlib Require Import Ascii DecimalString DecimalPos.
From stdpp Require Import base option gmap strings.

Local Open Scope Q_scope.

(** ** Comparison helper

    [a > b] on numbers, as a boolean. *)
Definition Qgtb (a b : Q) : bool := negb (Qle_bool a b).

(** ** Results of fallible calls *)

Inductive error : Set := NotFound.

Inductive result (A : Type) : Type :=
| Ok (a : A)
| Err (e : error).
Arguments Ok {A} a.
Arguments Err {A} e.

Definition bind {A B : Type} (r : result A) (k : A -> result B) : result B :=
  match r with
  | Ok a => k a
  | Err e => Err e
  end.

#[global] Instance result_bind : MBind result := fun A B k r => bind r k.

(** ** The salary table ([$lib/salaryData]) *)

Module SalaryData.

(** Modelled from the spec: the module [$lib/salaryData] is imported by
    both pages but is not among the sources.  The table is "an ordered set
    of scale identifiers, each mapping to an ordered set of step
    identifiers, each mapping to a monthly base amount". *)
Abbreviation SalaryTable := (gmap Z (gmap Z Q)).

Definition lookupTable (table : SalaryTable) (schaal trede : Z) : option Q :=
  row ← table !! schaal; row !! trede.

(** Modelled from the spec: [getMonthlyCompensation] is imported from
    [$lib/salaryData], which is not among the sources.  "[monthlyBase(scale,
    step) -> amount], fails with [NotFound] if the (scale, step) pair is
    absent." *)
Definition getMonthlyCompensation (table : SalaryTable) (schaal trede : Z)
  : result Q :=
  match lookupTable table schaal trede with
  | Some amount => Ok amount
  | None => Err NotFound
  end.

(** A one-entry table for the scenario "schaal 11, trede 5, 4000". *)
Definition sampleTable : SalaryTable :=
  {[ 11%Z := {[ 5%Z := 4000 ]} ]}.

End SalaryData.

(** ** The older page: [src/routes/+page.svelte], lines 34-39 *)

Module OlderPage.

Section Reactive.
Variable monthlyCompensation : Q.

Definition yearlyPreTaxSalary : Q := (monthlyCompensation * 0.919) * 12.
Definition preTaxTopup : Q := (monthlyCompensation * 0.165) * 12.
Definition pretaxSalaryInclBenefits : Q := yearlyPreTaxSalary + preTaxTopup.
Definition pension : Q := (monthlyCompensation * 0.27) * 12.
Definition totalCompensation : Q :=
  yearlyPreTaxSalary + preTaxTopup + pension.
Definition totalCompensation5Day : Q := totalCompensation * (5 / 4).
End Reactive.

End OlderPage.

(** ** The hours-aware page

    The page text that follows the README: the reactive statements of
    lines 53-61, the warning block of line 121 and the five-day block of
    lines 185-190. *)

Module HoursPage.

(** [const urenOptions = [27, 36, 38, 40];] *)
Definition urenOptions : list Q := [27; 36; 38; 40].

Section Reactive.
Variable monthlyCompensation : Q.
Variable selectedUren : Q.

Definition scaleFactor : Q := 12 * (selectedUren / 36).

Definition yearlyPreTaxSalary : Q := monthlyCompensation * scaleFactor.
Definition individualPensionContribution : Q :=
  (monthlyCompensation * 0.081) * scaleFactor.
Definition ikbBudget : Q := (monthlyCompensation * 0.165) * scaleFactor.
Definition pretaxSalaryInclBenefits : Q :=
  yearlyPreTaxSalary + ikbBudget - individualPensionContribution.
Definition pensoenEmployer : Q :=
  (monthlyCompensation * (0.27 - 0.081)) * scaleFactor.
Definition pension : Q := individualPensionContribution + pensoenEmployer.
Definition totalCompensation : Q := pretaxSalaryInclBenefits + pension.

(** [{#if yearlyPreTaxSalary + ikbBudget > 130000}] *)
Definition warningShown : bool :=
  Qgtb (yearlyPreTaxSalary + ikbBudget) 130000.

(** [{#if selectedUren === 36} ... totalCompensation * (5 / 4)] *)
Definition fiveDayShown : option Q :=
  if Qeq_bool selectedUren 36
  then Some (totalCompensation * (5 / 4))
  else None.
End Reactive.

(** The values the template puts on screen, top to bottom, before
    [formatCurrency]. *)
Record Rendered : Type := {
  r_warning : bool;
  r_monthlyScaled : Q;
  r_yearlyPreTaxSalary : Q;
  r_ownContributionDeducted : Q;
  r_ikbBudget : Q;
  r_pretaxSalaryInclBenefits : Q;
  r_individualPensionContribution : Q;
  r_pensoenEmployer : Q;
  r_pension : Q;
  r_totalCompensation : Q;
  r_fiveDay : option Q
}.

Definition render (monthlyCompensation selectedUren : Q) : Rendered :=
  {| r_warning := warningShown monthlyCompensation selectedUren;
     r_monthlyScaled := monthlyCompensation * (selectedUren / 36);
     r_yearlyPreTaxSalary := yearlyPreTaxSalary monthlyCompensation selectedUren;
     r_ownContributionDeducted :=
       -1 * individualPensionContribution monthlyCompensation selectedUren;
     r_ikbBudget := ikbBudget monthlyCompensation selectedUren;
     r_pretaxSalaryInclBenefits :=
       pretaxSalaryInclBenefits monthlyCompensation selectedUren;
     r_individualPensionContribution :=
       individualPensionContribution monthlyCompensation selectedUren;
     r_pensoenEmployer := pensoenEmployer monthlyCompensation selectedUren;
     r_pension := pension monthlyCompensation selectedUren;
     r_totalCompensation := totalCompensation monthlyCompensation selectedUren;
     r_fiveDay := fiveDayShown monthlyCompensation selectedUren |}.

(** [$: monthlyCompensation = getMonthlyCompensation(selectedSchaal,
    selectedTrede)] followed by everything that reads it: a failed lookup
    leaves nothing to render. *)
Definition page (table : SalaryData.SalaryTable)
    (selectedSchaal selectedTrede : Z) (selectedUren : Q) : result Rendered :=
  monthlyCompensation ←
    SalaryData.getMonthlyCompensation table selectedSchaal selectedTrede;
  Ok (render monthlyCompensation selectedUren).

End HoursPage.

(** ** The hours-aware formulas in IEEE binary64

    The decimal literals of the source are written as the doubles they
    round to: [0.081] is [0x1.4bc6a7ef9db23p-4], [0.165] is
    [0x1.51eb851eb851fp-3] and [0.27] is [0x1.147ae147ae148p-2]. *)

Module Binary64.

Section Reactive.
Variable monthlyCompensation : float.
Variable selectedUren : float.

Definition scaleFactor : float := (12 * (selectedUren / 36))%float.
Definition yearlyPreTaxSalary : float :=
  (monthlyCompensation * scaleFactor)%float.
Definition individualPensionContribution : float :=
  ((monthlyCompensation * 0x1.4bc6a7ef9db23p-4) * scaleFactor)%float.
Definition ikbBudget : float :=
  ((monthlyCompensation * 0x1.51eb851eb851fp-3) * scaleFactor)%float.
Definition pretaxSalaryInclBenefits : float :=
  (yearlyPreTaxSalary + ikbBudget - individualPensionContribution)%float.
Definition pensoenEmployer : float :=
  ((monthlyCompensation
    * (0x1.147ae147ae148p-2 - 0x1.4bc6a7ef9db23p-4)) * scaleFactor)%float.
Definition pension : float :=
  (individualPensionContribution + pensoenEmployer)%float.
Definition totalCompensation : float :=
  (pretaxSalaryInclBenefits + pension)%float.

(** [{#if yearlyPreTaxSalary + ikbBudget > 130000}] *)
Definition warningShown : bool :=
  (130000 <? yearlyPreTaxSalary + ikbBudget)%float.

(** [{#if selectedUren === 36} ... totalCompensation * (5 / 4)] *)
Definition fiveDayShown : option float :=
  if (selectedUren =? 36)%float
  then Some (totalCompensation * (5 / 4))%float
  else None.
End Reactive.

End Binary64.

(** ** The older page in IEEE binary64: [src/routes/+page.svelte],
    lines 34-39

    [0.919] is the double [0x1.d6872b020c49cp-1]. *)

Module OlderBinary64.

Section Reactive.
Variable monthlyCompensation : float.

Definition yearlyPreTaxSalary : float :=
  ((monthlyCompensation * 0x1.d6872b020c49cp-1) * 12)%float.
Definition preTaxTopup : float :=
  ((monthlyCompensation * 0x1.51eb851eb851fp-3) * 12)%float.
Definition pretaxSalaryInclBenefits : float :=
  (yearlyPreTaxSalary + preTaxTopup)%float.
Definition pension : float :=
  ((monthlyCompensation * 0x1.147ae147ae148p-2) * 12)%float.
Definition totalCompensation : float :=
  (yearlyPreTaxSalary + preTaxTopup + pension)%float.
Definition totalCompensation5Day : float :=
  (totalCompensation * (5 / 4))%float.
End Reactive.

End OlderBinary64.

(** ** Amounts on which the doubles are compared with the exact reading *)

Module Grid.

Fixpoint floatsFrom (start : float) (count : nat) : list float :=
  match count with
  | O => []
  | S n => start :: floatsFrom (start + 1)%float n
  end.

(** The whole-euro monthly amounts 1000, 1001, ..., 12000. *)
Definition wholeEuroBases : list float :=
  floatsFrom 1000%float (Z.to_nat 11001).

(** [const urenOptions = [27, 36, 38, 40];] as doubles. *)
Definition urenOptions : list float := [27; 36; 38; 40]%float.

(** Two amounts that differ by at most 2^-20, less than a millionth of a
    euro. *)
Definition agree (a b : float) : bool :=
  (abs (a - b) <=? 0x1p-20)%float.

End Grid.

(** ** The builtins the pages call on URL parameters

    Strings are sequences of code units below 256.  A [num] is what
    [parseInt] can return: [NaN] or an integer.  Integers are exact here; a
    double is exact up to 2^53 - 1 in magnitude ([isSafe]), and
    [toString] prints plain decimal digits below 10^21, so statements that
    print a number assume [isSafe]. *)

Module Js.

Inductive num : Set := NaN | Int (n : Z).

Definition isSafe (v : num) : bool :=
  match v with
  | NaN => true
  | Int n => (Z.abs n <=? 9007199254740991)%Z
  end.

(** White space that [parseInt] skips: TAB, LF, VT, FF, CR, SP, NBSP. *)
Definition isStrWhiteSpace (c : ascii) : bool :=
  match N_of_ascii c with
  | 9 | 10 | 11 | 12 | 13 | 32 | 160 => true
  | _ => false
  end%N.

Fixpoint trimStart (s : string) : string :=
  match s with
  | String c rest => if isStrWhiteSpace c then trimStart rest else s
  | EmptyString => EmptyString
  end.

Definition decDigit (c : ascii) : option (Decimal.uint -> Decimal.uint) :=
  match c with
  | "0" => Some Decimal.D0 | "1" => Some Decimal.D1 | "2" => Some Decimal.D2
  | "3" => Some Decimal.D3 | "4" => Some Decimal.D4 | "5" => Some Decimal.D5
  | "6" => Some Decimal.D6 | "7" => Some Decimal.D7 | "8" => Some Decimal.D8
  | "9" => Some Decimal.D9
  | _ => None
  end%char.

Definition hexDigit (c : ascii)
  : option (Hexadecimal.uint -> Hexadecimal.uint) :=
  match c with
  | "0" => Some Hexadecimal.D0 | "1" => Some Hexadecimal.D1
  | "2" => Some Hexadecimal.D2 | "3" => Some Hexadecimal.D3
  | "4" => Some Hexadecimal.D4 | "5" => Some Hexadecimal.D5
  | "6" => Some Hexadecimal.D6 | "7" => Some Hexadecimal.D7
  | "8" => Some Hexadecimal.D8 | "9" => Some Hexadecimal.D9
  | "a" | "A" => Some Hexadecimal.Da | "b" | "B" => Some Hexadecimal.Db
  | "c" | "C" => Some Hexadecimal.Dc | "d" | "D" => Some Hexadecimal.Dd
  | "e" | "E" => Some Hexadecimal.De | "f" | "F" => Some Hexadecimal.Df
  | _ => None
  end%char.

(** The longest prefix of radix digits. *)
Fixpoint scanDec (s : string) : Decimal.uint :=
  match s with
  | String c rest =>
      match decDigit c with
      | Some digit => digit (scanDec rest)
      | None => Decimal.Nil
      end
  | EmptyString => Decimal.Nil
  end.

Fixpoint scanHex (s : string) : Hexadecimal.uint :=
  match s with
  | String c rest =>
      match hexDigit c with
      | Some digit => digit (scanHex rest)
      | None => Hexadecimal.Nil
      end
  | EmptyString => Hexadecimal.Nil
  end.

Definition signOf (s : string) : Z :=
  match s with
  | String "-" _ => (-1)%Z
  | _ => 1%Z
  end.

Definition dropSign (s : string) : string :=
  match s with
  | String "+" rest | String "-" rest => rest
  | _ => s
  end.

Definition stripHexPrefix (s : string) : option string :=
  match s with
  | String "0" (String "x" rest) | String "0" (String "X" rest) => Some rest
  | _ => None
  end.

(** The value of the digit prefix, [None] when there is no digit. *)
Definition mathInt (s : string) : option Z :=
  match stripHexPrefix s with
  | Some rest =>
      match scanHex rest with
      | Hexadecimal.Nil => None
      | digits => Some (Z.of_hex_uint digits)
      end
  | None =>
      match scanDec s with
      | Decimal.Nil => None
      | digits => Some (Z.of_uint digits)
      end
  end.

(** [parseInt(string)] without a radix: skip leading white space, take the
    sign, switch to radix 16 after [0x] or [0X], read digits up to the first
    character that is none, [NaN] when no digit was read. *)
Definition parseInt (inputString : string) : num :=
  let s := trimStart inputString in
  match mathInt (dropSign s) with
  | Some m => Int (signOf s * m)
  | None => NaN
  end.

(** [Number.prototype.toString()] on [NaN] and on integers. *)
Definition toString (v : num) : string :=
  match v with
  | NaN => "NaN"
  | Int n => NilZero.string_of_int (Z.to_int n)
  end.

(** What may follow printed digits for [parseInt] to stop right there:
    nothing, or a character that is neither a decimal digit nor the [x] of
    a hex prefix. *)
Definition stopsNumber (t : string) : bool :=
  match t with
  | String c _ =>
      match decDigit c with
      | Some _ => false
      | None => negb (Ascii.eqb c "x") && negb (Ascii.eqb c "X")
      end
  | EmptyString => true
  end.

End Js.

(** [URLSearchParams]: the list of name-value pairs of the query, with
    [get] (first value of the name, or null) and [set] (replace the first
    pair of the name and remove its other pairs, or append). *)

Module URLSearchParams.

Fixpoint get (name : string) (params : list (string * string))
  : option string :=
  match params with
  | (k, v) :: rest => if String.eqb k name then Some v else get name rest
  | [] => None
  end.

Definition removeAll (name : string) (params : list (string * string))
  : list (string * string) :=
  List.filter (fun p => negb (String.eqb (fst p) name)) params.

Fixpoint set (name value : string) (params : list (string * string))
  : list (string * string) :=
  match params with
  | (k, v) :: rest =>
      if String.eqb k name
      then (k, value) :: removeAll name rest
      else (k, v) :: set name value rest
  | [] => [(name, value)]
  end.

End URLSearchParams.

(** [url ? parseInt(url) : dflt], the expression both pages use for each
    parameter: null and the empty string are falsy. *)
Definition paramOrDefault (param : option string) (dflt : Z) : Js.num :=
  match param with
  | Some (String c rest) => Js.parseInt (String c rest)
  | Some EmptyString | None => Js.Int dflt
  end.

(** ** URL parameters of the older page: [src/routes/+page.svelte],
    lines 10-17 and 24-31 *)

Module OlderPageUrl.

Record Selection : Set := {
  selectedSchaal : Js.num;
  selectedTrede : Js.num
}.

Definition initialSelection (searchParams : list (string * string))
  : Selection :=
  let urlSchaal := URLSearchParams.get "schaal" searchParams in
  let urlTrede := URLSearchParams.get "trede" searchParams in
  {| selectedSchaal := paramOrDefault urlSchaal 11;
     selectedTrede := paramOrDefault urlTrede 5 |}.

(** The reactive block that rewrites the address; [inBrowser] is
    [typeof window !== 'undefined'], and the result is the query passed to
    [replaceState]. *)
Definition syncUrl (inBrowser : bool) (sel : Selection)
    (location : list (string * string)) : list (string * string) :=
  if inBrowser then
    let url := location in
    let url := URLSearchParams.set "schaal"
                 (Js.toString (selectedSchaal sel)) url in
    let url := URLSearchParams.set "trede"
                 (Js.toString (selectedTrede sel)) url in
    url
  else location.

End OlderPageUrl.

(** ** URL parameters of the hours-aware page: lines 24-33 and 43-51 *)

Module HoursPageUrl.

Record Selection : Set := {
  selectedSchaal : Js.num;
  selectedTrede : Js.num;
  selectedUren : Js.num
}.

Definition initialSelection (searchParams : list (string * string))
  : Selection :=
  let urlSchaal := URLSearchParams.get "schaal" searchParams in
  let urlTrede := URLSearchParams.get "trede" searchParams in
  let urlUren := URLSearchParams.get "uren" searchParams in
  {| selectedSchaal := paramOrDefault urlSchaal 11;
     selectedTrede := paramOrDefault urlTrede 5;
     selectedUren := paramOrDefault urlUren 36 |}.

Definition syncUrl (inBrowser : bool) (sel : Selection)
    (location : list (string * string)) : list (string * string) :=
  if inBrowser then
    let url := location in
    let url := URLSearchParams.set "schaal"
                 (Js.toString (selectedSchaal sel)) url in
    let url := URLSearchParams.set "trede"
                 (Js.toString (selectedTrede sel)) url in
    let url := URLSearchParams.set "uren"
                 (Js.toString (selectedUren sel)) url in
    url
  else location.

End HoursPageUrl.

(** * Properties *)

(** ** Unfolding and arithmetic on amounts *)

Ltac unfold_hours :=
  unfold HoursPage.render, HoursPage.totalCompensation, HoursPage.pension,
    HoursPage.pensoenEmployer, HoursPage.pretaxSalaryInclBenefits,
    HoursPage.ikbBudget, HoursPage.individualPensionContribution,
    HoursPage.yearlyPreTaxSalary, HoursPage.scaleFactor; cbn [
    HoursPage.r_yearlyPreTaxSalary HoursPage.r_ikbBudget
    HoursPage.r_pretaxSalaryInclBenefits HoursPage.r_pension
    HoursPage.r_individualPensionContribution HoursPage.r_pensoenEmployer
    HoursPage.r_totalCompensation HoursPage.r_monthlyScaled
    HoursPage.r_ownContributionDeducted].

Ltac unfold_older :=
  unfold OlderPage.totalCompensation5Day, OlderPage.totalCompensation,
    OlderPage.pension, OlderPage.pretaxSalaryInclBenefits,
    OlderPage.preTaxTopup, OlderPage.yearlyPreTaxSalary.

Ltac amounts := intros; unfold_hours; unfold_older; field.

(** ** Comparing doubles *)

Lemma float_neq (a b : float) :
  PrimFloat.eqb a b = false -> PrimFloat.eqb a a = true -> a <> b.
Proof. intros E R H. rewrite <- H in E. congruence. Qed.

Lemma on_grid (P : float -> float -> bool) :
  forallb (fun mb => forallb (P mb) Grid.urenOptions) Grid.wholeEuroBases
  = true ->
  forall mb h,
    In mb Grid.wholeEuroBases -> In h Grid.urenOptions -> P mb h = true.
Proof.
  intros H mb h Hmb Hh. rewrite forallb_forall in H.
  specialize (H mb Hmb). rewrite forallb_forall in H. exact (H h Hh).
Qed.

Lemma on_bases (P : float -> bool) :
  forallb P Grid.wholeEuroBases = true ->
  forall mb, In mb Grid.wholeEuroBases -> P mb = true.
Proof. intros H. now apply forallb_forall. Qed.

Lemma SFcompare_antisym x y :
  SFcompare y x = option_map CompOpp (SFcompare x y).
Proof.
  destruct x as [sx | sx | | sx mx ex], y as [sy | sy | | sy my ey];
    try reflexivity; try (destruct sx; reflexivity);
    try (destruct sy; reflexivity); try (destruct sx, sy; reflexivity).
  cbn [SFcompare option_map]. f_equal.
  destruct sx, sy; try reflexivity;
    rewrite (Z.compare_antisym ex ey); destruct (ex ?= ey)%Z; cbn [CompOpp];
    try reflexivity;
    change (Pos.compare_cont Eq ?a ?b) with (a ?= b)%positive;
    rewrite (Pos.compare_antisym mx my); destruct (mx ?= my)%positive;
    reflexivity.
Qed.

(** When [x <= y] holds of two doubles, [y < x] does not. *)
Lemma leb_not_ltb (x y : float) :
  PrimFloat.leb x y = true -> PrimFloat.ltb y x = false.
Proof.
  rewrite leb_spec, ltb_spec. unfold SFleb, SFltb.
  rewrite (SFcompare_antisym (Prim2SF x) (Prim2SF y)).
  destruct (SFcompare (Prim2SF x) (Prim2SF y)) as [[| |] |]; cbn; congruence.
Qed.

(** A successful lookup hands its amount to [render]. *)
Lemma page_of_lookup table schaal trede uren mb :
  SalaryData.getMonthlyCompensation table schaal trede = Ok mb ->
  HoursPage.page table schaal trede uren = Ok (HoursPage.render mb uren).
Proof. intros H. unfold HoursPage.page. rewrite H. reflexivity. Qed.

(** The whole package is 135.4% of the scaled yearly base. *)
Lemma totalCompensation_closed_form mb h :
  HoursPage.totalCompensation mb h == mb * HoursPage.scaleFactor h * 1.354.
Proof. amounts. Qed.

(** ** Yearly gross *)

(** C1, as stated: on the older page, one of the two places the claim
    names, the yearly salary for base 4000 is 44112, not 4000 times the
    scale factor of 36 hours (48000): the factor 0.919 is applied there. *)
Lemma yearly_gross_of_older_page_has_factor_0919 :
  ~ (OlderBinary64.yearlyPreTaxSalary 4000
     = (4000 * Binary64.scaleFactor 36)%float).
Proof. apply float_neq; vm_compute; reflexivity. Qed.

(** C1, amended: on the hours-aware page the yearly gross salary is the
    monthly base times [scaleFactor], with [scaleFactor = 12 * (h / 36)],
    for every monthly base and every hours value, and no further factor is
    applied (in particular not 0.919); the older page, which has no hours
    input, computes (base * 0.919) * 12 instead. *)
Theorem yearlyPreTaxSalary_base_times_scaleFactor :
  (forall h, HoursPage.scaleFactor h == 12 * (h / 36))
  /\ (forall mb h,
        HoursPage.yearlyPreTaxSalary mb h == mb * HoursPage.scaleFactor h)
  /\ (forall mb h,
        HoursPage.r_yearlyPreTaxSalary (HoursPage.render mb h)
        == mb * (12 * (h / 36)))
  /\ ~ (forall mb h,
          HoursPage.yearlyPreTaxSalary mb h
          == (mb * 0.919) * HoursPage.scaleFactor h)
  /\ (forall mb h : float,
        Binary64.yearlyPreTaxSalary mb h = (mb * (12 * (h / 36)))%float)
  /\ ~ (forall mb h : float,
          Binary64.yearlyPreTaxSalary mb h
          = ((mb * 0x1.d6872b020c49cp-1) * Binary64.scaleFactor h)%float)
  /\ (forall mb, OlderPage.yearlyPreTaxSalary mb == (mb * 0.919) * 12)
  /\ (forall mb : float,
        OlderBinary64.yearlyPreTaxSalary mb
        = ((mb * 0x1.d6872b020c49cp-1) * 12)%float).
Proof.
  repeat split; try (intros; reflexivity).
  - intros H. specialize (H 1 36). vm_compute in H. discriminate H.
  - intros H. specialize (H 4000%float 36%float). revert H.
    apply float_neq; vm_compute; reflexivity.
Qed.

(** ** Pension *)

(** C2, as stated: in the doubles of the code the pension line for base
    1006 at 36 hours, 3259.4400000000005, is not 27% of base times scale
    factor, 3259.4400000000001. *)
Lemma pension_is_not_27_percent_in_binary64 :
  ~ (Binary64.individualPensionContribution 1006 36
     = ((1006 * 0x1.4bc6a7ef9db23p-4) * Binary64.scaleFactor 36)%float
     /\ Binary64.pensoenEmployer 1006 36
        = ((1006 * (0x1.147ae147ae148p-2 - 0x1.4bc6a7ef9db23p-4))
           * Binary64.scaleFactor 36)%float
     /\ Binary64.pension 1006 36
        = (Binary64.individualPensionContribution 1006 36
           + Binary64.pensoenEmployer 1006 36)%float
     /\ Binary64.pension 1006 36
        = (0x1.147ae147ae148p-2 * (1006 * Binary64.scaleFactor 36))%float).
Proof.
  intros (_ & _ & _ & H). revert H. apply float_neq; vm_compute; reflexivity.
Qed.

(** The other ways of grouping 27% of base times scale factor give the
    same double, so none of them is the pension line either. *)
Lemma pension_is_not_27_percent_regrouped :
  Binary64.pension 1006 36
  <> ((1006 * Binary64.scaleFactor 36) * 0x1.147ae147ae148p-2)%float
  /\ Binary64.pension 1006 36
     <> ((1006 * 0x1.147ae147ae148p-2) * Binary64.scaleFactor 36)%float.
Proof. split; apply float_neq; vm_compute; reflexivity. Qed.

(** C2, amended: the employee contribution is base * 0.081 * scaleFactor,
    the employer contribution is base * (0.27 - 0.081) * scaleFactor, and
    the total pension is their sum, in the exact reading and in the doubles
    of the code alike.  The sum is 27% of base * scaleFactor in exact
    arithmetic; in the doubles it is so up to rounding only: within 2^-20
    for every whole-euro base from 1000 to 12000 at 27, 36, 38 and 40
    hours. *)
Theorem pension_split :
  (forall mb h,
     HoursPage.individualPensionContribution mb h
     == mb * 0.081 * HoursPage.scaleFactor h
     /\ HoursPage.pensoenEmployer mb h
        == mb * (0.27 - 0.081) * HoursPage.scaleFactor h
     /\ HoursPage.pension mb h
        == HoursPage.individualPensionContribution mb h
           + HoursPage.pensoenEmployer mb h
     /\ HoursPage.pension mb h == 0.27 * (mb * HoursPage.scaleFactor h))
  /\ (forall mb h : float,
        Binary64.individualPensionContribution mb h
        = ((mb * 0x1.4bc6a7ef9db23p-4) * Binary64.scaleFactor h)%float
        /\ Binary64.pensoenEmployer mb h
           = ((mb * (0x1.147ae147ae148p-2 - 0x1.4bc6a7ef9db23p-4))
              * Binary64.scaleFactor h)%float
        /\ Binary64.pension mb h
           = (Binary64.individualPensionContribution mb h
              + Binary64.pensoenEmployer mb h)%float)
  /\ (forall mb h,
        In mb Grid.wholeEuroBases -> In h Grid.urenOptions ->
        Grid.agree (Binary64.pension mb h)
          (0x1.147ae147ae148p-2 * (mb * Binary64.scaleFactor h))%float
        = true).
Proof.
  split; [| split].
  - intros mb h. repeat split; try reflexivity; amounts.
  - intros mb h. repeat split.
  - apply (on_grid (fun mb h =>
      Grid.agree (Binary64.pension mb h)
        (0x1.147ae147ae148p-2 * (mb * Binary64.scaleFactor h))%float)).
    vm_compute. reflexivity.
Qed.

(** ** Choice budget and totals *)

(** C3: the individual choice budget is base * 0.165 * scaleFactor, the
    gross including benefits is yearly gross + budget - employee pension,
    and the total compensation is that figure plus the total pension. *)
Theorem ikb_gross_and_total :
  forall mb h,
    HoursPage.ikbBudget mb h == mb * 0.165 * HoursPage.scaleFactor h
    /\ HoursPage.pretaxSalaryInclBenefits mb h
       == HoursPage.yearlyPreTaxSalary mb h + HoursPage.ikbBudget mb h
          - HoursPage.individualPensionContribution mb h
    /\ HoursPage.totalCompensation mb h
       == HoursPage.pretaxSalaryInclBenefits mb h + HoursPage.pension mb h
    /\ HoursPage.r_totalCompensation (HoursPage.render mb h)
       == mb * (12 * (h / 36)) + mb * 0.165 * (12 * (h / 36))
          - mb * 0.081 * (12 * (h / 36))
          + (mb * 0.081 * (12 * (h / 36))
             + mb * (0.27 - 0.081) * (12 * (h / 36))).
Proof.
  intros mb h. repeat split; try reflexivity; amounts.
Qed.

(** ** The five-day line *)

Lemma fiveDayShown_at_36 mb :
  HoursPage.fiveDayShown mb 36
  = Some (HoursPage.totalCompensation mb 36 * (5 / 4)).
Proof. reflexivity. Qed.

Lemma fiveDayShown_is_Some mb h :
  is_Some (HoursPage.fiveDayShown mb h) <-> h == 36.
Proof.
  unfold HoursPage.fiveDayShown.
  destruct (Qeq_bool h 36) eqn:E.
  - split; [intros _; now apply Qeq_bool_eq | intros _; eexists; reflexivity].
  - split.
    + intros [x Hx]. discriminate Hx.
    + intros Hh. apply Qeq_eq_bool in Hh. congruence.
Qed.

(** C4: at 36 contracted hours the scale factor is 12 and the five-day
    figure is the total compensation times 5/4, that is times 1.25; the
    five-day figure is produced exactly when the hours equal 36. *)
Theorem fiveDay_only_at_baseline :
  HoursPage.scaleFactor 36 == 12
  /\ (forall mb,
        HoursPage.r_fiveDay (HoursPage.render mb 36)
        = Some (HoursPage.totalCompensation mb 36 * (5 / 4)))
  /\ (forall mb,
        HoursPage.totalCompensation mb 36 * (5 / 4)
        == HoursPage.totalCompensation mb 36 * 1.25)
  /\ (forall mb h,
        is_Some (HoursPage.r_fiveDay (HoursPage.render mb h)) <-> h == 36)
  /\ (forall mb h,
        ~ h == 36 -> HoursPage.r_fiveDay (HoursPage.render mb h) = None).
Proof.
  split; [reflexivity |].
  split; [intros mb; apply fiveDayShown_at_36 |].
  split; [intros mb; field |].
  split; [intros mb h; apply fiveDayShown_is_Some |].
  intros mb h Hh. cbn [HoursPage.render HoursPage.r_fiveDay].
  destruct (HoursPage.fiveDayShown mb h) eqn:E; [| reflexivity].
  exfalso. apply Hh. apply (fiveDayShown_is_Some mb h). rewrite E. eauto.
Qed.

(** ** The scenario: base 4000 at 36 hours *)

(** C5, as stated: an employer pension of 7488 and a total of 63408 are not
    what the formulas give for base 4000 at 36 hours. *)
Lemma scenario_4000_claimed_values_fail :
  ~ (HoursPage.scaleFactor 36 == 12
     /\ HoursPage.yearlyPreTaxSalary 4000 36 == 48000
     /\ HoursPage.individualPensionContribution 4000 36 == 3888
     /\ HoursPage.ikbBudget 4000 36 == 7920
     /\ HoursPage.pensoenEmployer 4000 36 == 7488
     /\ HoursPage.totalCompensation 4000 36 == 63408).
Proof.
  intros (_ & _ & _ & _ & H & _). vm_compute in H. discriminate H.
Qed.

(** C5, amended: for base 4000 (schaal 11, trede 5 in the sample table) at
    36 hours the scale factor is 12, the yearly gross 48000, the employee
    pension 3888, the choice budget 7920, the employer pension 9072 and the
    total compensation 48000 + 7920 - 3888 + 3888 + 9072 = 64992. *)
Theorem scenario_4000_at_36 :
  SalaryData.getMonthlyCompensation SalaryData.sampleTable 11 5 = Ok 4000
  /\ HoursPage.page SalaryData.sampleTable 11 5 36
     = Ok (HoursPage.render 4000 36)
  /\ HoursPage.scaleFactor 36 == 12
  /\ HoursPage.yearlyPreTaxSalary 4000 36 == 48000
  /\ HoursPage.individualPensionContribution 4000 36 == 3888
  /\ HoursPage.ikbBudget 4000 36 == 7920
  /\ HoursPage.pensoenEmployer 4000 36 == 9072
  /\ HoursPage.totalCompensation 4000 36 == 64992
  /\ 48000 + 7920 - 3888 + 3888 + 9072 == 64992.
Proof.
  split; [reflexivity |].
  split; [apply page_of_lookup; reflexivity |].
  repeat split.
Qed.

(** The same scenario in binary64: every amount is the exact integer. *)
Lemma scenario_4000_at_36_binary64 :
  Binary64.scaleFactor 36 = 12%float
  /\ Binary64.yearlyPreTaxSalary 4000 36 = 48000%float
  /\ Binary64.individualPensionContribution 4000 36 = 3888%float
  /\ Binary64.ikbBudget 4000 36 = 7920%float
  /\ Binary64.pensoenEmployer 4000 36 = 9072%float
  /\ Binary64.totalCompensation 4000 36 = 64992%float.
Proof. repeat split; vm_compute; reflexivity. Qed.

(** ** Scaling with the hours *)

(** C6, as stated: in the doubles of the code the yearly gross for base
    4000 at 38 hours, 50666.666666666672, is not the yearly gross at 36
    hours times 38/36, 50666.666666666664. *)
Lemma yearly_gross_not_linear_in_binary64 :
  ~ (Binary64.yearlyPreTaxSalary 4000 38
     = (Binary64.yearlyPreTaxSalary 4000 36 * (38 / 36))%float).
Proof. apply float_neq; vm_compute; reflexivity. Qed.

(** C6, amended: in exact arithmetic the yearly gross at [h] hours is the
    yearly gross at 36 hours times [h / 36], for every monthly base and
    every [h].  In the doubles of the code the two agree up to rounding:
    within 2^-20 for every whole-euro base from 1000 to 12000 at 27, 36, 38
    and 40 hours, and exactly at 27 and 36 hours. *)
Theorem yearlyPreTaxSalary_linear_in_hours :
  (forall mb h,
     HoursPage.yearlyPreTaxSalary mb h
     == HoursPage.yearlyPreTaxSalary mb 36 * (h / 36))
  /\ (forall mb h,
        In mb Grid.wholeEuroBases -> In h Grid.urenOptions ->
        Grid.agree (Binary64.yearlyPreTaxSalary mb h)
          (Binary64.yearlyPreTaxSalary mb 36 * (h / 36))%float
        = true)
  /\ (forall mb,
        In mb Grid.wholeEuroBases ->
        (PrimFloat.eqb (Binary64.yearlyPreTaxSalary mb 27)
           (Binary64.yearlyPreTaxSalary mb 36 * (27 / 36))%float
         && PrimFloat.eqb (Binary64.yearlyPreTaxSalary mb 36)
              (Binary64.yearlyPreTaxSalary mb 36 * (36 / 36))%float)%bool
        = true).
Proof.
  split; [amounts | split].
  - apply (on_grid (fun mb h =>
      Grid.agree (Binary64.yearlyPreTaxSalary mb h)
        (Binary64.yearlyPreTaxSalary mb 36 * (h / 36))%float)).
    vm_compute. reflexivity.
  - apply (on_bases (fun mb =>
      (PrimFloat.eqb (Binary64.yearlyPreTaxSalary mb 27)
         (Binary64.yearlyPreTaxSalary mb 36 * (27 / 36))%float
       && PrimFloat.eqb (Binary64.yearlyPreTaxSalary mb 36)
            (Binary64.yearlyPreTaxSalary mb 36 * (36 / 36))%float)%bool)).
    vm_compute. reflexivity.
Qed.

Lemma scaleFactor_pos h : 0 < h -> 0 < HoursPage.scaleFactor h.
Proof.
  intros Hh. unfold HoursPage.scaleFactor.
  apply Qmult_lt_0_compat; [reflexivity |].
  apply Qlt_shift_div_l; [reflexivity |].
  now rewrite Qmult_0_l.
Qed.

(** C7: for a non-negative monthly base and positive contracted hours the
    total compensation is at least the yearly gross. *)
Theorem totalCompensation_ge_yearlyGross :
  forall mb h,
    0 <= mb -> 0 < h ->
    HoursPage.yearlyPreTaxSalary mb h <= HoursPage.totalCompensation mb h.
Proof.
  intros mb h Hmb Hh.
  rewrite totalCompensation_closed_form.
  unfold HoursPage.yearlyPreTaxSalary.
  assert (Hx : 0 <= mb * HoursPage.scaleFactor h).
  { apply Qmult_le_0_compat; [exact Hmb |].
    apply Qlt_le_weak, scaleFactor_pos, Hh. }
  set (x := mb * HoursPage.scaleFactor h) in *.
  rewrite <- (Qmult_1_r x) at 1.
  rewrite (Qmult_comm x 1), (Qmult_comm x 1.354).
  apply Qmult_le_compat_r; [| exact Hx].
  unfold Qle; simpl; lia.
Qed.

Lemma totalCompensation_ge_yearlyGross_witness :
  0 <= 4000 /\ 0 < 36
  /\ HoursPage.yearlyPreTaxSalary 4000 36 <= HoursPage.totalCompensation 4000 36.
Proof.
  split; [unfold Qle; simpl; lia |].
  split; [reflexivity |].
  apply (totalCompensation_ge_yearlyGross 4000 36);
    [unfold Qle; simpl; lia | reflexivity].
Defined.

(** ** The high-income warning *)

Lemma Qgtb_true_iff a b : Qgtb a b = true <-> b < a.
Proof.
  unfold Qgtb. rewrite negb_true_iff. split.
  - intros H. apply Qnot_le_lt. intros Hle.
    apply Qle_bool_iff in Hle. congruence.
  - intros H. destruct (Qle_bool a b) eqn:E; [| reflexivity].
    apply Qle_bool_iff in E. exfalso. exact (Qlt_not_le _ _ H E).
Qed.

Lemma Qgtb_false_iff a b : Qgtb a b = false <-> a <= b.
Proof.
  unfold Qgtb. rewrite negb_false_iff. apply Qle_bool_iff.
Qed.

(** C8: the warning is shown exactly when yearly gross plus choice budget
    is strictly above 130000, so it is absent at the threshold and below
    it, in the exact reading and in the doubles of the code; the amounts
    are computed by the same expressions whether or not the warning is
    shown. *)
Theorem warning_iff_above_130000 :
  (forall mb h,
     (HoursPage.r_warning (HoursPage.render mb h) = true
      <-> 130000 < HoursPage.yearlyPreTaxSalary mb h + HoursPage.ikbBudget mb h)
     /\ (HoursPage.yearlyPreTaxSalary mb h + HoursPage.ikbBudget mb h
         <= 130000 ->
         HoursPage.r_warning (HoursPage.render mb h) = false)
     /\ (forall shown,
           HoursPage.r_warning (HoursPage.render mb h) = shown ->
           HoursPage.r_yearlyPreTaxSalary (HoursPage.render mb h)
           == mb * HoursPage.scaleFactor h
           /\ HoursPage.r_ikbBudget (HoursPage.render mb h)
              == mb * 0.165 * HoursPage.scaleFactor h
           /\ HoursPage.r_pension (HoursPage.render mb h)
              == mb * 0.081 * HoursPage.scaleFactor h
                 + mb * (0.27 - 0.081) * HoursPage.scaleFactor h
           /\ HoursPage.r_totalCompensation (HoursPage.render mb h)
              == mb * HoursPage.scaleFactor h
                 + mb * 0.165 * HoursPage.scaleFactor h
                 - mb * 0.081 * HoursPage.scaleFactor h
                 + (mb * 0.081 * HoursPage.scaleFactor h
                    + mb * (0.27 - 0.081) * HoursPage.scaleFactor h)))
  /\ (forall mb h : float,
        (Binary64.warningShown mb h = true
         <-> (130000 <? Binary64.yearlyPreTaxSalary mb h
                        + Binary64.ikbBudget mb h)%float = true)
        /\ ((Binary64.yearlyPreTaxSalary mb h + Binary64.ikbBudget mb h
             <=? 130000)%float = true ->
            Binary64.warningShown mb h = false)
        /\ (forall shown,
              Binary64.warningShown mb h = shown ->
              Binary64.totalCompensation mb h
              = (mb * (12 * (h / 36))
                 + (mb * 0x1.51eb851eb851fp-3) * (12 * (h / 36))
                 - (mb * 0x1.4bc6a7ef9db23p-4) * (12 * (h / 36))
                 + ((mb * 0x1.4bc6a7ef9db23p-4) * (12 * (h / 36))
                    + (mb * (0x1.147ae147ae148p-2 - 0x1.4bc6a7ef9db23p-4))
                      * (12 * (h / 36))))%float)).
Proof.
  split.
  - intros mb h.
    split; [apply Qgtb_true_iff |].
    split; [apply Qgtb_false_iff |].
    intros shown _. repeat split; reflexivity.
  - intros mb h.
    split; [reflexivity |].
    split; [apply leb_not_ltb | intros shown _; reflexivity].
Qed.

(** In the doubles: no warning at base 4000 and 36 hours, none at base 9298
    (sum 129986.04), a warning at base 9299 (sum 130000.02) and at base
    10000, and none when the hours are not a number. *)
Lemma warning_examples_binary64 :
  Binary64.warningShown 4000 36 = false
  /\ Binary64.warningShown 9298 36 = false
  /\ Binary64.warningShown 9299 36 = true
  /\ Binary64.warningShown 10000 36 = true
  /\ Binary64.warningShown 4000 nan = false.
Proof. repeat split; vm_compute; reflexivity. Qed.

(** At base 10000 and 36 hours the sum is 139800 and the warning shows; at
    exactly 130000 and one euro a year below it does not, one euro above it
    does. *)
Lemma warning_examples :
  HoursPage.warningShown 10000 36 = true
  /\ HoursPage.totalCompensation 10000 36 == 162480
  /\ HoursPage.yearlyPreTaxSalary (130000 / 13.98) 36
     + HoursPage.ikbBudget (130000 / 13.98) 36 == 130000
  /\ HoursPage.warningShown (130000 / 13.98) 36 = false
  /\ HoursPage.warningShown (129999 / 13.98) 36 = false
  /\ HoursPage.warningShown (130001 / 13.98) 36 = true
  /\ HoursPage.warningShown 4000 36 = false.
Proof. repeat split. Qed.

(** ** Lookups that fail *)

Lemma error_is_NotFound (e : error) : e = NotFound.
Proof. destruct e. reflexivity. Qed.

Lemma getMonthlyCompensation_Ok_iff table schaal trede amount :
  SalaryData.getMonthlyCompensation table schaal trede = Ok amount
  <-> SalaryData.lookupTable table schaal trede = Some amount.
Proof.
  unfold SalaryData.getMonthlyCompensation.
  destruct (SalaryData.lookupTable table schaal trede); split; congruence.
Qed.

Lemma lookupTable_None (table : gmap Z (gmap Z Q)) schaal trede :
  SalaryData.lookupTable table schaal trede = None
  <-> table !! schaal = None
      \/ exists row, table !! schaal = Some row /\ row !! trede = None.
Proof.
  unfold SalaryData.lookupTable.
  destruct (table !! schaal) as [row |] eqn:E; simpl.
  - split.
    + intros H. right. exists row. split; [reflexivity | exact H].
    + intros [H | (row' & Hrow & H)]; [discriminate H |]. congruence.
  - split; [intros _; left; reflexivity | reflexivity].
Qed.

(** The page fails only when the lookup does. *)
Lemma page_Err_only_from_lookup table schaal trede uren e :
  HoursPage.page table schaal trede uren = Err e ->
  SalaryData.lookupTable table schaal trede = None.
Proof.
  unfold HoursPage.page, SalaryData.getMonthlyCompensation.
  destruct (SalaryData.lookupTable table schaal trede); [| reflexivity].
  discriminate.
Qed.

(** C9: for a (schaal, trede) pair that is not in the table, be it an
    unknown schaal or an unknown trede of a known schaal, the lookup fails
    with [NotFound], returns no amount (no default, no zero), and the page
    built on it fails the same way; [NotFound] is the only error there is. *)
Theorem getMonthlyCompensation_absent_is_NotFound :
  forall (table : gmap Z (gmap Z Q)) schaal trede,
    (table !! schaal = None
     \/ exists row, table !! schaal = Some row /\ row !! trede = None) ->
    SalaryData.getMonthlyCompensation table schaal trede = Err NotFound
    /\ (forall amount,
          SalaryData.getMonthlyCompensation table schaal trede <> Ok amount)
    /\ (forall uren, HoursPage.page table schaal trede uren = Err NotFound)
    /\ (forall e : error, e = NotFound).
Proof.
  intros table schaal trede Habsent.
  apply lookupTable_None in Habsent.
  assert (H : SalaryData.getMonthlyCompensation table schaal trede
              = Err NotFound).
  { unfold SalaryData.getMonthlyCompensation. now rewrite Habsent. }
  split; [exact H |].
  split; [intros amount; rewrite H; discriminate |].
  split; [| exact error_is_NotFound].
  intros uren. unfold HoursPage.page. now rewrite H.
Qed.

Lemma getMonthlyCompensation_absent_is_NotFound_witness :
  SalaryData.getMonthlyCompensation SalaryData.sampleTable 11 6 = Err NotFound
  /\ SalaryData.getMonthlyCompensation SalaryData.sampleTable 12 5
     = Err NotFound.
Proof.
  split.
  - apply (getMonthlyCompensation_absent_is_NotFound
             SalaryData.sampleTable 11 6).
    right. exists {[ 5%Z := 4000 ]}. split; reflexivity.
  - apply (getMonthlyCompensation_absent_is_NotFound
             SalaryData.sampleTable 12 5).
    left. reflexivity.
Defined.

(** ** The two page versions and the total *)

(** C10, as stated: in the doubles of the code the older page's total for
    base 1004, 16312.992000000002, is not the hours-aware page's total at
    36 hours, 16312.991999999998. *)
Lemma older_total_differs_in_binary64 :
  ~ (OlderBinary64.totalCompensation 1004
     = Binary64.totalCompensation 1004 36).
Proof. apply float_neq; vm_compute; reflexivity. Qed.

(** Nor is base * 12 * 1.354 either total, even where the two totals are
    the same double: at base 4000 both are 64992 and the product is
    64992.000000000007. *)
Lemma closed_form_differs_in_binary64 :
  OlderBinary64.totalCompensation 4000 = 64992%float
  /\ Binary64.totalCompensation 4000 36 = 64992%float
  /\ (4000 * 12 * 0x1.5a9fbe76c8b44p+0)%float <> 64992%float.
Proof.
  split; [vm_compute; reflexivity |]. split; [vm_compute; reflexivity |].
  apply float_neq; vm_compute; reflexivity.
Qed.

(** C10, amended: in exact arithmetic, for every monthly base the older
    page's total (base * 0.919 * 12 + base * 0.165 * 12 + base * 0.27 * 12)
    equals the hours-aware page's total at 36 hours (yearly gross + budget
    - employee pension + employee pension + employer pension, with scale
    factor 12), and both are base * 12 * 1.354, although the yearly salary
    lines of the two pages differ.  In the doubles of the code the two
    totals and base * 12 * 1.354 agree up to rounding only: within 2^-20 of
    each other for every whole-euro base from 1000 to 12000. *)
Theorem older_total_is_hours_total_at_36 :
  (forall mb,
     OlderPage.totalCompensation mb
     == mb * 0.919 * 12 + mb * 0.165 * 12 + mb * 0.27 * 12
     /\ HoursPage.totalCompensation mb 36
        == mb * 12 + mb * 0.165 * 12 - mb * 0.081 * 12
           + (mb * 0.081 * 12 + mb * (0.27 - 0.081) * 12)
     /\ OlderPage.totalCompensation mb == HoursPage.totalCompensation mb 36
     /\ OlderPage.totalCompensation mb == mb * 12 * 1.354
     /\ HoursPage.totalCompensation mb 36 == mb * 12 * 1.354)
  /\ ~ OlderPage.yearlyPreTaxSalary 4000 == HoursPage.yearlyPreTaxSalary 4000 36
  /\ (forall mb,
        In mb Grid.wholeEuroBases ->
        (Grid.agree (OlderBinary64.totalCompensation mb)
           (Binary64.totalCompensation mb 36)
         && Grid.agree (OlderBinary64.totalCompensation mb)
              (mb * 12 * 0x1.5a9fbe76c8b44p+0)%float
         && Grid.agree (Binary64.totalCompensation mb 36)
              (mb * 12 * 0x1.5a9fbe76c8b44p+0)%float)%bool
        = true)
  /\ OlderBinary64.yearlyPreTaxSalary 4000
     <> Binary64.yearlyPreTaxSalary 4000 36.
Proof.
  split; [| split; [| split]].
  - intros mb. repeat split; amounts.
  - intros H. vm_compute in H. discriminate H.
  - apply (on_bases (fun mb =>
      (Grid.agree (OlderBinary64.totalCompensation mb)
         (Binary64.totalCompensation mb 36)
       && Grid.agree (OlderBinary64.totalCompensation mb)
            (mb * 12 * 0x1.5a9fbe76c8b44p+0)%float
       && Grid.agree (Binary64.totalCompensation mb 36)
            (mb * 12 * 0x1.5a9fbe76c8b44p+0)%float)%bool)).
    vm_compute. reflexivity.
  - apply float_neq; vm_compute; reflexivity.
Qed.

(** * Further properties of the formulas *)

(** ** Order of the lines *)

Lemma Qle_by_difference a b x c :
  b - a == x * c -> 0 <= x -> 0 <= c -> a <= b.
Proof.
  intros E Hx Hc. apply Qle_minus_iff.
  assert (E' : b + - a == x * c) by (rewrite <- E; ring).
  rewrite E'.
  now apply Qmult_le_0_compat.
Qed.

Lemma Qnonneg_const_3 : 0 <= 0.027 /\ 0 <= 0.028 /\ 0 <= 0.055 /\ 0 <= 0.09.
Proof. repeat split; unfold Qle; simpl; lia. Qed.

(** For a non-negative base and non-negative hours the own contribution is
    non-negative and below the choice budget, so the section total lies
    between the yearly gross and gross plus budget, and the final total is
    at least the section total. *)
Theorem lines_are_ordered :
  forall mb h,
    0 <= mb -> 0 <= h ->
    0 <= HoursPage.individualPensionContribution mb h
    /\ HoursPage.individualPensionContribution mb h <= HoursPage.ikbBudget mb h
    /\ HoursPage.yearlyPreTaxSalary mb h
       <= HoursPage.pretaxSalaryInclBenefits mb h
    /\ HoursPage.pretaxSalaryInclBenefits mb h
       <= HoursPage.yearlyPreTaxSalary mb h + HoursPage.ikbBudget mb h
    /\ HoursPage.pretaxSalaryInclBenefits mb h
       <= HoursPage.totalCompensation mb h.
Proof.
  intros mb h Hmb Hh.
  assert (Hx : 0 <= mb * h) by now apply Qmult_le_0_compat.
  destruct Qnonneg_const_3 as (H27 & H28 & H55 & H90).
  split; [apply (Qle_by_difference _ _ (mb * h) 0.027); auto; amounts |].
  split; [apply (Qle_by_difference _ _ (mb * h) 0.028); auto; amounts |].
  split; [apply (Qle_by_difference _ _ (mb * h) 0.028); auto; amounts |].
  split; [apply (Qle_by_difference _ _ (mb * h) 0.027); auto; amounts |].
  apply (Qle_by_difference _ _ (mb * h) 0.09); auto; amounts.
Qed.

Lemma lines_are_ordered_witness :
  0 <= 4000 /\ 0 <= 27
  /\ HoursPage.yearlyPreTaxSalary 4000 27
     <= HoursPage.pretaxSalaryInclBenefits 4000 27.
Proof.
  split; [unfold Qle; simpl; lia |].
  split; [unfold Qle; simpl; lia |].
  apply (lines_are_ordered 4000 27); unfold Qle; simpl; lia.
Defined.

(** ** The warning as the inputs grow *)

Lemma warning_sum_closed_form mb h :
  HoursPage.yearlyPreTaxSalary mb h + HoursPage.ikbBudget mb h
  == (mb * h) * (1.165 / 3).
Proof. amounts. Qed.

(** Once the warning is shown it stays for every larger base and every
    larger number of hours (both non-negative). *)
Theorem warning_is_monotone :
  forall mb h mb' h',
    0 <= mb -> mb <= mb' -> 0 <= h -> h <= h' ->
    HoursPage.warningShown mb h = true ->
    HoursPage.warningShown mb' h' = true.
Proof.
  intros mb h mb' h' Hmb Hmb' Hh Hh' Hw.
  unfold HoursPage.warningShown in *.
  apply Qgtb_true_iff in Hw. apply Qgtb_true_iff.
  eapply Qlt_le_trans; [exact Hw |].
  rewrite !warning_sum_closed_form.
  apply Qmult_le_compat_r; [| unfold Qle; simpl; lia].
  apply Qmult_le_compat_nonneg; split; assumption.
Qed.

Lemma warning_is_monotone_witness :
  HoursPage.warningShown 10000 36 = true
  /\ HoursPage.warningShown 10500 40 = true.
Proof.
  split; [reflexivity |].
  apply (warning_is_monotone 10000 36 10500 40);
    try (unfold Qle; simpl; lia); reflexivity.
Defined.

(** The warning is shown exactly when base times hours exceeds
    390000 / 1.165, which at 36 hours is a monthly base above
    130000 / 13.98; a zero or negative product never shows it. *)
Theorem warning_in_terms_of_the_inputs :
  forall mb h,
    (HoursPage.warningShown mb h = true <-> 390000 / 1.165 < mb * h)
    /\ (HoursPage.warningShown mb 36 = true <-> 130000 / 13.98 < mb)
    /\ (mb * h <= 0 -> HoursPage.warningShown mb h = false).
Proof.
  intros mb h.
  assert (G : forall a b c, 0 < c -> (a < b * c <-> a / c < b)).
  { intros a b c Hc. split; intros H.
    - apply Qlt_shift_div_r; assumption.
    - assert (E : a == a / c * c).
      { field. intros E. rewrite E in Hc. exact (Qlt_irrefl _ Hc). }
      rewrite E. apply Qmult_lt_compat_r; assumption. }
  split; [| split].
  - unfold HoursPage.warningShown. rewrite Qgtb_true_iff.
    rewrite <- (G 390000 (mb * h) 1.165) by reflexivity.
    rewrite warning_sum_closed_form.
    assert (E : mb * h * (1.165 / 3) == (mb * h * 1.165) / 3) by field.
    rewrite E. split; intros H.
    + assert (E3 : mb * h * 1.165 == mb * h * 1.165 / 3 * 3) by field.
      rewrite E3.
      apply Qle_lt_trans with (130000 * 3); [unfold Qle; simpl; lia |].
      apply Qmult_lt_compat_r; [reflexivity | exact H].
    + apply Qlt_shift_div_l; [reflexivity |].
      eapply Qle_lt_trans; [| exact H]. unfold Qle; simpl; lia.
  - unfold HoursPage.warningShown. rewrite Qgtb_true_iff.
    rewrite <- (G 130000 mb 13.98) by reflexivity.
    assert (E : HoursPage.yearlyPreTaxSalary mb 36 + HoursPage.ikbBudget mb 36
                == mb * 13.98) by amounts.
    rewrite E. reflexivity.
  - intros Hle. unfold HoursPage.warningShown. apply Qgtb_false_iff.
    rewrite warning_sum_closed_form.
    apply Qle_trans with 0; [| unfold Qle; simpl; lia].
    apply Qle_minus_iff.
    assert (E : 0 + - (mb * h * (1.165 / 3)) == (0 + - (mb * h)) * (1.165 / 3))
      by field.
    rewrite E. apply Qmult_le_0_compat; [| unfold Qle; simpl; lia].
    apply Qle_minus_iff in Hle. exact Hle.
Qed.

(** ** No guard on the inputs *)


(** * Properties of the URL handling *)

(** ** Printing and parsing integers *)

Lemma scanDec_stop t : Js.stopsNumber t = true -> Js.scanDec t = Decimal.Nil.
Proof.
  destruct t as [| c t]; [reflexivity |].
  unfold Js.stopsNumber. cbn [Js.scanDec].
  destruct (Js.decDigit c); [discriminate | reflexivity].
Qed.

Lemma append_cons c (s t : string) : String c s +:+ t = String c (s +:+ t).
Proof. reflexivity. Qed.

Lemma scanDec_print d t :
  Js.stopsNumber t = true ->
  Js.scanDec (NilEmpty.string_of_uint d +:+ t) = d.
Proof.
  intros Ht.
  induction d; cbn [NilEmpty.string_of_uint]; rewrite ?append_cons;
    [now apply scanDec_stop | cbn [Js.scanDec Js.decDigit]; now rewrite IHd ..].
Qed.

Lemma stripHexPrefix_print d t :
  d <> Decimal.Nil -> Js.stopsNumber t = true ->
  Js.stripHexPrefix (NilEmpty.string_of_uint d +:+ t) = None.
Proof.
  intros Hd Ht.
  destruct d as [| d | d | d | d | d | d | d | d | d | d];
    try reflexivity; [congruence |].
  destruct d; try reflexivity.
  destruct t as [| c t]; [reflexivity |].
  destruct c as [[|] [|] [|] [|] [|] [|] [|] [|]];
    try reflexivity; discriminate Ht.
Qed.

Lemma mathInt_print d t :
  d <> Decimal.Nil -> Js.stopsNumber t = true ->
  Js.mathInt (NilEmpty.string_of_uint d +:+ t) = Some (Z.of_uint d).
Proof.
  intros Hd Ht. unfold Js.mathInt.
  rewrite stripHexPrefix_print, scanDec_print by assumption.
  destruct d; congruence.
Qed.

Lemma print_starts_with_digit d t :
  d <> Decimal.Nil ->
  let s := NilEmpty.string_of_uint d +:+ t in
  Js.trimStart s = s /\ Js.signOf s = 1%Z /\ Js.dropSign s = s.
Proof. intros Hd. destruct d; [congruence | ..]; repeat split. Qed.

Lemma parseInt_digits d t :
  d <> Decimal.Nil -> Js.stopsNumber t = true ->
  Js.parseInt (NilEmpty.string_of_uint d +:+ t) = Js.Int (Z.of_uint d)
  /\ Js.parseInt (String "-" (NilEmpty.string_of_uint d +:+ t))
     = Js.Int (- Z.of_uint d).
Proof.
  intros Hd Ht.
  destruct (print_starts_with_digit d t Hd) as (Htrim & Hsign & Hdrop).
  cbv zeta in Htrim, Hsign, Hdrop. split.
  - unfold Js.parseInt. rewrite Htrim, Hdrop, Hsign, mathInt_print by assumption.
    f_equal; try lia.
  - unfold Js.parseInt.
    change (Js.trimStart (String "-" ?s)) with (String "-" s).
    cbn [Js.dropSign Js.signOf]. rewrite mathInt_print by assumption.
    f_equal; try lia.
Qed.

Lemma toString_Int_cases n :
  (n = 0%Z /\ Js.toString (Js.Int n) = "0")
  \/ (exists d, d <> Decimal.Nil /\ Z.of_uint d = n
                /\ Js.toString (Js.Int n) = NilEmpty.string_of_uint d)
  \/ (exists d, d <> Decimal.Nil /\ (- Z.of_uint d)%Z = n
                /\ Js.toString (Js.Int n)
                   = String "-" (NilEmpty.string_of_uint d)).
Proof.
  destruct n as [| p | p].
  - left. split; reflexivity.
  - right. left. exists (Pos.to_uint p).
    pose proof (Unsigned.to_uint_nonnil p) as Hn.
    split; [exact Hn |]. split.
    + unfold Z.of_uint. now rewrite Unsigned.of_to.
    + unfold Js.toString, Z.to_int, NilZero.string_of_int,
        NilZero.string_of_uint.
      destruct (Pos.to_uint p);
        [exfalso; apply Hn; reflexivity | reflexivity ..].
  - right. right. exists (Pos.to_uint p).
    pose proof (Unsigned.to_uint_nonnil p) as Hn.
    split; [exact Hn |]. split.
    + unfold Z.of_uint. now rewrite Unsigned.of_to.
    + unfold Js.toString, Z.to_int, NilZero.string_of_int,
        NilZero.string_of_uint.
      destruct (Pos.to_uint p);
        [exfalso; apply Hn; reflexivity | reflexivity ..].
Qed.

Lemma append_empty_r (s : string) : s +:+ "" = s.
Proof.
  induction s as [| c s IH]; [reflexivity |]. rewrite append_cons. now rewrite IH.
Qed.

(** Parsing what [toString] printed gives the number back, also when
    something that stops the number follows. *)
Lemma parseInt_toString_tail n t :
  Js.stopsNumber t = true ->
  Js.parseInt (Js.toString (Js.Int n) +:+ t) = Js.Int n.
Proof.
  intros Ht.
  destruct (toString_Int_cases n)
    as [[-> E] | [(d & Hd & <- & E) | (d & Hd & <- & E)]]; rewrite E.
  - apply (parseInt_digits (Decimal.D0 Decimal.Nil) t); [discriminate | exact Ht].
  - now apply parseInt_digits.
  - now apply parseInt_digits.
Qed.

Lemma parseInt_toString v : Js.parseInt (Js.toString v) = v.
Proof.
  destruct v as [| n]; [reflexivity |].
  rewrite <- (append_empty_r (Js.toString (Js.Int n))).
  now apply parseInt_toString_tail.
Qed.

Lemma toString_nonempty v : exists c rest, Js.toString v = String c rest.
Proof.
  destruct v as [| n]; [cbn; eauto |].
  destruct (toString_Int_cases n)
    as [[-> E] | [(d & Hd & _ & E) | (d & Hd & _ & E)]]; rewrite E; eauto.
  destruct d; [congruence | ..]; cbn; eauto.
Qed.

Lemma paramOrDefault_toString v dflt :
  paramOrDefault (Some (Js.toString v)) dflt = v.
Proof.
  destruct (toString_nonempty v) as (c & rest & E).
  unfold paramOrDefault. rewrite E, <- E. apply parseInt_toString.
Qed.

(** ** [get] after [set] *)

Lemma get_removeAll_ne name name' (params : list (string * string)) :
  name <> name' ->
  URLSearchParams.get name' (URLSearchParams.removeAll name params)
  = URLSearchParams.get name' params.
Proof.
  intros Hne. induction params as [| [k v] rest IH]; [reflexivity |].
  cbn [URLSearchParams.removeAll List.filter fst URLSearchParams.get].
  fold (URLSearchParams.removeAll name rest).
  destruct (String.eqb_spec k name) as [-> | Hk]; cbn [negb].
  - rewrite IH. destruct (String.eqb_spec name name'); congruence.
  - cbn [URLSearchParams.get]. now rewrite IH.
Qed.

Lemma get_set_eq name value (params : list (string * string)) :
  URLSearchParams.get name (URLSearchParams.set name value params)
  = Some value.
Proof.
  induction params as [| [k v] rest IH]; cbn [URLSearchParams.set].
  - cbn [URLSearchParams.get]. now rewrite String.eqb_refl.
  - destruct (String.eqb k name) eqn:E; cbn [URLSearchParams.get]; rewrite E;
      [reflexivity | exact IH].
Qed.

Lemma get_set_ne name name' value (params : list (string * string)) :
  name <> name' ->
  URLSearchParams.get name' (URLSearchParams.set name value params)
  = URLSearchParams.get name' params.
Proof.
  intros Hne. induction params as [| [k v] rest IH]; cbn [URLSearchParams.set].
  - cbn [URLSearchParams.get].
    destruct (String.eqb_spec name name'); congruence.
  - destruct (String.eqb_spec k name) as [-> | Hk]; cbn [URLSearchParams.get].
    + destruct (String.eqb_spec name name'); [congruence |].
      now apply get_removeAll_ne.
    + now rewrite IH.
Qed.

(** ** [set] on a query that already has the value *)

Lemma removeAll_removeAll name name' (params : list (string * string)) :
  URLSearchParams.removeAll name (URLSearchParams.removeAll name' params)
  = URLSearchParams.removeAll name' (URLSearchParams.removeAll name params).
Proof.
  unfold URLSearchParams.removeAll.
  induction params as [| [k v] rest IH]; [reflexivity |].
  cbn [List.filter fst].
  destruct (String.eqb k name) eqn:E, (String.eqb k name') eqn:E';
    cbn [negb List.filter fst]; rewrite ?E, ?E'; cbn [negb]; congruence.
Qed.

Lemma removeAll_idempotent name (params : list (string * string)) :
  URLSearchParams.removeAll name (URLSearchParams.removeAll name params)
  = URLSearchParams.removeAll name params.
Proof.
  unfold URLSearchParams.removeAll.
  induction params as [| [k v] rest IH]; [reflexivity |].
  cbn [List.filter fst].
  destruct (String.eqb k name) eqn:E; cbn [negb List.filter fst];
    rewrite ?E; cbn [negb]; congruence.
Qed.

Lemma set_set_same name value (params : list (string * string)) :
  URLSearchParams.set name value (URLSearchParams.set name value params)
  = URLSearchParams.set name value params.
Proof.
  induction params as [| [k v] rest IH]; cbn [URLSearchParams.set].
  - now rewrite String.eqb_refl.
  - destruct (String.eqb k name) eqn:E; cbn [URLSearchParams.set]; rewrite E.
    + now rewrite removeAll_idempotent.
    + now rewrite IH.
Qed.

Lemma removeAll_fixed_after_removeAll name name'
    (params : list (string * string)) :
  URLSearchParams.removeAll name params = params ->
  URLSearchParams.removeAll name (URLSearchParams.removeAll name' params)
  = URLSearchParams.removeAll name' params.
Proof. intros H. rewrite removeAll_removeAll. now rewrite H. Qed.

Lemma removeAll_shorter name (params : list (string * string)) :
  (length (URLSearchParams.removeAll name params) <= length params)%nat.
Proof. apply List.filter_length_le. Qed.

Lemma removeAll_fixed_after_set name name' value'
    (params : list (string * string)) :
  name <> name' ->
  URLSearchParams.removeAll name params = params ->
  URLSearchParams.removeAll name (URLSearchParams.set name' value' params)
  = URLSearchParams.set name' value' params.
Proof.
  intros Hne. induction params as [| [k v] rest IH]; intros H.
  - cbn. destruct (String.eqb_spec name' name); [congruence | reflexivity].
  - cbn [URLSearchParams.removeAll List.filter fst] in H.
    fold (URLSearchParams.removeAll name rest) in H.
    destruct (String.eqb k name) eqn:E; cbn [negb] in H.
    + exfalso. pose proof (removeAll_shorter name rest) as Hlen.
      rewrite H in Hlen. cbn in Hlen. lia.
    + injection H as H. cbn [URLSearchParams.set].
      destruct (String.eqb k name') eqn:E';
        cbn [URLSearchParams.removeAll List.filter fst]; rewrite E; cbn [negb];
        f_equal.
      * now apply removeAll_fixed_after_removeAll.
      * now apply IH.
Qed.

Lemma set_fixed_after_removeAll name value name'
    (params : list (string * string)) :
  name <> name' ->
  URLSearchParams.set name value params = params ->
  URLSearchParams.set name value (URLSearchParams.removeAll name' params)
  = URLSearchParams.removeAll name' params.
Proof.
  intros Hne. induction params as [| [k v] rest IH]; intros H.
  - discriminate H.
  - cbn [URLSearchParams.set] in H.
    cbn [URLSearchParams.removeAll List.filter fst].
    fold (URLSearchParams.removeAll name' rest).
    destruct (String.eqb_spec k name) as [-> | Hk].
    + injection H as Hv H.
      destruct (String.eqb_spec name name'); [congruence |]. cbn [negb].
      cbn [URLSearchParams.set]. rewrite String.eqb_refl. subst v. f_equal.
      now apply removeAll_fixed_after_removeAll.
    + injection H as H.
      destruct (String.eqb k name') eqn:E'; cbn [negb]; [now apply IH |].
      cbn [URLSearchParams.set].
      destruct (String.eqb_spec k name); [congruence |]. f_equal. now apply IH.
Qed.

(** A [set] that changed nothing still changes nothing after a [set] of
    another name. *)
Lemma set_fixed_after_set name value name' value'
    (params : list (string * string)) :
  name <> name' ->
  URLSearchParams.set name value params = params ->
  URLSearchParams.set name value (URLSearchParams.set name' value' params)
  = URLSearchParams.set name' value' params.
Proof.
  intros Hne. induction params as [| [k v] rest IH]; intros H.
  - discriminate H.
  - cbn [URLSearchParams.set] in H. cbn [URLSearchParams.set].
    destruct (String.eqb_spec k name) as [-> | Hk].
    + injection H as Hv H. subst v.
      destruct (String.eqb_spec name name'); [congruence |].
      cbn [URLSearchParams.set]. rewrite String.eqb_refl. f_equal.
      now apply removeAll_fixed_after_set.
    + injection H as H.
      destruct (String.eqb k name') eqn:E'; cbn [URLSearchParams.set];
        destruct (String.eqb_spec k name); try congruence; f_equal.
      * now apply set_fixed_after_removeAll.
      * now apply IH.
Qed.

(** ** What the pages read from the address *)

Lemma parseInt_no_digit c rest :
  Js.isStrWhiteSpace c = false -> Js.decDigit c = None ->
  c <> "+"%char -> c <> "-"%char ->
  Js.parseInt (String c rest) = Js.NaN.
Proof.
  intros Hws Hd Hplus Hminus.
  destruct c as [[|] [|] [|] [|] [|] [|] [|] [|]];
    try reflexivity; try discriminate Hws; try discriminate Hd; congruence.
Qed.

Lemma paramOrDefault_append n t dflt :
  Js.stopsNumber t = true ->
  paramOrDefault (Some (Js.toString (Js.Int n) +:+ t)) dflt = Js.Int n.
Proof.
  intros Ht. destruct (toString_nonempty (Js.Int n)) as (c & rest & E).
  unfold paramOrDefault. rewrite E, append_cons, <- append_cons, <- E.
  now apply parseInt_toString_tail.
Qed.

(** A parameter that is missing or empty gives the default (schaal 11,
    trede 5, 36 hours); with no parameters at all the page opens on
    11 / 5 / 36. *)
Theorem missing_or_empty_parameter_gives_default :
  forall searchParams,
    (URLSearchParams.get "schaal" searchParams = None
     \/ URLSearchParams.get "schaal" searchParams = Some "" ->
     HoursPageUrl.selectedSchaal (HoursPageUrl.initialSelection searchParams)
     = Js.Int 11)
    /\ (URLSearchParams.get "trede" searchParams = None
        \/ URLSearchParams.get "trede" searchParams = Some "" ->
        HoursPageUrl.selectedTrede (HoursPageUrl.initialSelection searchParams)
        = Js.Int 5)
    /\ (URLSearchParams.get "uren" searchParams = None
        \/ URLSearchParams.get "uren" searchParams = Some "" ->
        HoursPageUrl.selectedUren (HoursPageUrl.initialSelection searchParams)
        = Js.Int 36)
    /\ (URLSearchParams.get "schaal" searchParams = None
        \/ URLSearchParams.get "schaal" searchParams = Some "" ->
        OlderPageUrl.selectedSchaal (OlderPageUrl.initialSelection searchParams)
        = Js.Int 11)
    /\ (URLSearchParams.get "trede" searchParams = None
        \/ URLSearchParams.get "trede" searchParams = Some "" ->
        OlderPageUrl.selectedTrede (OlderPageUrl.initialSelection searchParams)
        = Js.Int 5).
Proof.
  intros searchParams.
  repeat split; intros [H | H]; cbn; rewrite H; reflexivity.
Qed.

(** A parameter whose value starts with something that is neither white
    space, a sign nor a digit is read as [NaN]; the default is not used. *)
Theorem parameter_without_digits_is_NaN :
  forall searchParams c rest,
    Js.isStrWhiteSpace c = false -> Js.decDigit c = None ->
    c <> "+"%char -> c <> "-"%char ->
    (URLSearchParams.get "schaal" searchParams = Some (String c rest) ->
     HoursPageUrl.selectedSchaal (HoursPageUrl.initialSelection searchParams)
     = Js.NaN
     /\ OlderPageUrl.selectedSchaal
          (OlderPageUrl.initialSelection searchParams) = Js.NaN)
    /\ (URLSearchParams.get "trede" searchParams = Some (String c rest) ->
        HoursPageUrl.selectedTrede (HoursPageUrl.initialSelection searchParams)
        = Js.NaN
        /\ OlderPageUrl.selectedTrede
             (OlderPageUrl.initialSelection searchParams) = Js.NaN)
    /\ (URLSearchParams.get "uren" searchParams = Some (String c rest) ->
        HoursPageUrl.selectedUren (HoursPageUrl.initialSelection searchParams)
        = Js.NaN).
Proof.
  intros searchParams c rest Hws Hd Hplus Hminus.
  pose proof (parseInt_no_digit c rest Hws Hd Hplus Hminus) as Hnan.
  split; [| split]; intros H; repeat split;
    unfold HoursPageUrl.initialSelection, OlderPageUrl.initialSelection;
    cbn [HoursPageUrl.selectedSchaal HoursPageUrl.selectedTrede
         HoursPageUrl.selectedUren OlderPageUrl.selectedSchaal
         OlderPageUrl.selectedTrede];
    rewrite H; exact Hnan.
Qed.

Lemma parameter_without_digits_is_NaN_witness :
  HoursPageUrl.selectedUren
    (HoursPageUrl.initialSelection [("schaal", "12"); ("uren", "veertig")])
  = Js.NaN.
Proof.
  apply (parameter_without_digits_is_NaN
           [("schaal", "12"); ("uren", "veertig")] "v" "eertig");
    [reflexivity | reflexivity | discriminate | discriminate | reflexivity].
Defined.

(** A value that starts with the digits of an integer is read up to the
    first character that is no digit: whatever follows is dropped, so hours
    with a decimal part are cut to whole hours. *)
Theorem parameter_is_read_up_to_first_non_digit :
  forall searchParams n tail,
    Js.isSafe (Js.Int n) = true ->
    Js.stopsNumber tail = true ->
    (URLSearchParams.get "schaal" searchParams
     = Some (Js.toString (Js.Int n) +:+ tail) ->
     HoursPageUrl.selectedSchaal (HoursPageUrl.initialSelection searchParams)
     = Js.Int n)
    /\ (URLSearchParams.get "trede" searchParams
        = Some (Js.toString (Js.Int n) +:+ tail) ->
        HoursPageUrl.selectedTrede (HoursPageUrl.initialSelection searchParams)
        = Js.Int n)
    /\ (URLSearchParams.get "uren" searchParams
        = Some (Js.toString (Js.Int n) +:+ tail) ->
        HoursPageUrl.selectedUren (HoursPageUrl.initialSelection searchParams)
        = Js.Int n).
Proof.
  intros searchParams n tail _ Ht.
  repeat split; intros H; cbn [HoursPageUrl.initialSelection
    HoursPageUrl.selectedSchaal HoursPageUrl.selectedTrede
    HoursPageUrl.selectedUren]; rewrite H; now apply paramOrDefault_append.
Qed.

Lemma parameter_is_read_up_to_first_non_digit_witness :
  HoursPageUrl.selectedUren (HoursPageUrl.initialSelection [("uren", "37.5")])
  = Js.Int 37.
Proof.
  apply (parameter_is_read_up_to_first_non_digit [("uren", "37.5")] 37 ".5");
    reflexivity.
Defined.

(** ** Links written by the page *)

Ltac read_back :=
  repeat first
    [ rewrite get_set_eq
    | rewrite get_set_ne by discriminate ];
  rewrite ?paramOrDefault_toString.

(** Opening the address the hours-aware page wrote restores the selection
    it was written from: schaal, trede and hours, each a safe integer or
    [NaN], whatever the address held before. *)
Theorem hours_link_restores_selection :
  forall sel location,
    Js.isSafe (HoursPageUrl.selectedSchaal sel) = true ->
    Js.isSafe (HoursPageUrl.selectedTrede sel) = true ->
    Js.isSafe (HoursPageUrl.selectedUren sel) = true ->
    HoursPageUrl.initialSelection (HoursPageUrl.syncUrl true sel location)
    = sel.
Proof.
  intros [schaal trede uren] location _ _ _.
  unfold HoursPageUrl.initialSelection, HoursPageUrl.syncUrl.
  cbn [HoursPageUrl.selectedSchaal HoursPageUrl.selectedTrede
       HoursPageUrl.selectedUren].
  read_back. reflexivity.
Qed.

Lemma hours_link_restores_selection_witness :
  HoursPageUrl.initialSelection
    (HoursPageUrl.syncUrl true
       {| HoursPageUrl.selectedSchaal := Js.Int 12;
          HoursPageUrl.selectedTrede := Js.Int 3;
          HoursPageUrl.selectedUren := Js.Int 40 |}
       [("trede", "7"); ("ref", "mail"); ("trede", "8")])
  = {| HoursPageUrl.selectedSchaal := Js.Int 12;
       HoursPageUrl.selectedTrede := Js.Int 3;
       HoursPageUrl.selectedUren := Js.Int 40 |}.
Proof.
  apply (hours_link_restores_selection
           {| HoursPageUrl.selectedSchaal := Js.Int 12;
              HoursPageUrl.selectedTrede := Js.Int 3;
              HoursPageUrl.selectedUren := Js.Int 40 |}
           [("trede", "7"); ("ref", "mail"); ("trede", "8")]);
    reflexivity.
Defined.

(** The same for the older page and its two parameters. *)
Theorem older_link_restores_selection :
  forall sel location,
    Js.isSafe (OlderPageUrl.selectedSchaal sel) = true ->
    Js.isSafe (OlderPageUrl.selectedTrede sel) = true ->
    OlderPageUrl.initialSelection (OlderPageUrl.syncUrl true sel location)
    = sel.
Proof.
  intros [schaal trede] location _ _.
  unfold OlderPageUrl.initialSelection, OlderPageUrl.syncUrl.
  cbn [OlderPageUrl.selectedSchaal OlderPageUrl.selectedTrede].
  read_back. reflexivity.
Qed.

Lemma older_link_restores_selection_witness :
  OlderPageUrl.initialSelection
    (OlderPageUrl.syncUrl true
       {| OlderPageUrl.selectedSchaal := Js.Int 9;
          OlderPageUrl.selectedTrede := Js.NaN |}
       [("schaal", "abc")])
  = {| OlderPageUrl.selectedSchaal := Js.Int 9;
       OlderPageUrl.selectedTrede := Js.NaN |}.
Proof.
  apply (older_link_restores_selection
           {| OlderPageUrl.selectedSchaal := Js.Int 9;
              OlderPageUrl.selectedTrede := Js.NaN |}
           [("schaal", "abc")]);
    reflexivity.
Defined.

(** ** What rewriting the address leaves alone *)

Lemma filter_removeAll_other (keep : string -> bool) name
    (params : list (string * string)) :
  keep name = false ->
  List.filter (fun p => keep (fst p)) (URLSearchParams.removeAll name params)
  = List.filter (fun p => keep (fst p)) params.
Proof.
  intros Hname. induction params as [| [k v] rest IH]; [reflexivity |].
  cbn [URLSearchParams.removeAll List.filter fst].
  fold (URLSearchParams.removeAll name rest).
  destruct (String.eqb_spec k name) as [-> | Hk]; cbn [negb].
  - rewrite Hname. exact IH.
  - cbn [List.filter fst]. rewrite IH. reflexivity.
Qed.

(** A [set] leaves the pairs of every other name as they were: all of
    them, repeated ones included, in their order. *)
Lemma filter_set_other (keep : string -> bool) name value
    (params : list (string * string)) :
  keep name = false ->
  List.filter (fun p => keep (fst p)) (URLSearchParams.set name value params)
  = List.filter (fun p => keep (fst p)) params.
Proof.
  intros Hname. induction params as [| [k v] rest IH].
  - cbn. now rewrite Hname.
  - cbn [URLSearchParams.set].
    destruct (String.eqb_spec k name) as [-> | Hk]; cbn [List.filter fst].
    + rewrite Hname. now apply filter_removeAll_other.
    + now rewrite IH.
Qed.

(** Rewriting the address keeps every pair whose name is not schaal, trede
    or uren: all of them, repeated names included, in their order, so also
    the first value [get] returns for such a name.  Run a second time with
    the same selection it changes nothing, and outside the browser it does
    nothing. *)
Theorem syncUrl_keeps_other_parameters :
  forall inBrowser sel location,
    let other := fun p : string * string =>
      (negb (String.eqb (fst p) "schaal")
       && negb (String.eqb (fst p) "trede")
       && negb (String.eqb (fst p) "uren"))%bool in
    List.filter other (HoursPageUrl.syncUrl inBrowser sel location)
    = List.filter other location
    /\ (forall name,
          name <> "schaal" -> name <> "trede" -> name <> "uren" ->
          URLSearchParams.get name
            (HoursPageUrl.syncUrl inBrowser sel location)
          = URLSearchParams.get name location)
    /\ HoursPageUrl.syncUrl inBrowser sel
         (HoursPageUrl.syncUrl inBrowser sel location)
       = HoursPageUrl.syncUrl inBrowser sel location
    /\ HoursPageUrl.syncUrl false sel location = location.
Proof.
  intros inBrowser sel location other.
  split; [| split; [| split; [| reflexivity]]].
  - destruct inBrowser; [| reflexivity]. unfold HoursPageUrl.syncUrl.
    set (keep := fun name : string =>
      (negb (String.eqb name "schaal") && negb (String.eqb name "trede")
       && negb (String.eqb name "uren"))%bool).
    change other with (fun p : string * string => keep (fst p)).
    now rewrite !filter_set_other by reflexivity.
  - intros name Hs Ht Hu. destruct inBrowser; [| reflexivity].
    unfold HoursPageUrl.syncUrl.
    now rewrite !get_set_ne by congruence.
  - destruct inBrowser; [| reflexivity]. unfold HoursPageUrl.syncUrl.
    set (s := Js.toString (HoursPageUrl.selectedSchaal sel)).
    set (t := Js.toString (HoursPageUrl.selectedTrede sel)).
    set (u := Js.toString (HoursPageUrl.selectedUren sel)).
    set (l1 := URLSearchParams.set "schaal" s location).
    set (l2 := URLSearchParams.set "trede" t l1).
    set (l3 := URLSearchParams.set "uren" u l2).
    assert (H1 : URLSearchParams.set "schaal" s l1 = l1)
      by apply set_set_same.
    assert (H2 : URLSearchParams.set "trede" t l2 = l2)
      by apply set_set_same.
    assert (H3 : URLSearchParams.set "uren" u l3 = l3)
      by apply set_set_same.
    assert (H12 : URLSearchParams.set "schaal" s l2 = l2)
      by (apply set_fixed_after_set; [discriminate | exact H1]).
    assert (H13 : URLSearchParams.set "schaal" s l3 = l3)
      by (apply set_fixed_after_set; [discriminate | exact H12]).
    assert (H23 : URLSearchParams.set "trede" t l3 = l3)
      by (apply set_fixed_after_set; [discriminate | exact H2]).
    now rewrite H13, H23, H3.
Qed.

(** ** Links between the two page versions *)

(** A link written by the older page opens in the hours-aware page on the
    same schaal and trede, with the hours the address already held, which
    is 36 when it held none; a link written by the hours-aware page opens
    in the older page on the same schaal and trede. *)
Theorem links_open_in_the_other_page_version :
  forall schaal trede location,
    Js.isSafe schaal = true -> Js.isSafe trede = true ->
    let older := {| OlderPageUrl.selectedSchaal := schaal;
                    OlderPageUrl.selectedTrede := trede |} in
    HoursPageUrl.initialSelection (OlderPageUrl.syncUrl true older location)
    = {| HoursPageUrl.selectedSchaal := schaal;
         HoursPageUrl.selectedTrede := trede;
         HoursPageUrl.selectedUren :=
           paramOrDefault (URLSearchParams.get "uren" location) 36 |}
    /\ (URLSearchParams.get "uren" location = None ->
        HoursPageUrl.selectedUren
          (HoursPageUrl.initialSelection
             (OlderPageUrl.syncUrl true older location))
        = Js.Int 36)
    /\ (forall uren,
          Js.isSafe uren = true ->
          OlderPageUrl.initialSelection
            (HoursPageUrl.syncUrl true
               {| HoursPageUrl.selectedSchaal := schaal;
                  HoursPageUrl.selectedTrede := trede;
                  HoursPageUrl.selectedUren := uren |} location)
          = older).
Proof.
  intros schaal trede location _ _ older. subst older.
  assert (E : HoursPageUrl.initialSelection
                (OlderPageUrl.syncUrl true
                   {| OlderPageUrl.selectedSchaal := schaal;
                      OlderPageUrl.selectedTrede := trede |} location)
              = {| HoursPageUrl.selectedSchaal := schaal;
                   HoursPageUrl.selectedTrede := trede;
                   HoursPageUrl.selectedUren :=
                     paramOrDefault (URLSearchParams.get "uren" location) 36 |}).
  { unfold HoursPageUrl.initialSelection, OlderPageUrl.syncUrl.
    cbn [OlderPageUrl.selectedSchaal OlderPageUrl.selectedTrede].
    read_back. reflexivity. }
  split; [exact E |]. split.
  - intros Hnone. rewrite E. cbn [HoursPageUrl.selectedUren].
    now rewrite Hnone.
  - intros uren _.
    unfold OlderPageUrl.initialSelection, HoursPageUrl.syncUrl.
    cbn [HoursPageUrl.selectedSchaal HoursPageUrl.selectedTrede
         HoursPageUrl.selectedUren].
    read_back. reflexivity.
Qed.

Lemma links_open_in_the_other_page_version_witness :
  HoursPageUrl.initialSelection
    (OlderPageUrl.syncUrl true
       {| OlderPageUrl.selectedSchaal := Js.Int 12;
          OlderPageUrl.selectedTrede := Js.Int 3 |} [])
  = {| HoursPageUrl.selectedSchaal := Js.Int 12;
       HoursPageUrl.selectedTrede := Js.Int 3;
       HoursPageUrl.selectedUren := Js.Int 36 |}.
Proof.
  apply (links_open_in_the_other_page_version (Js.Int 12) (Js.Int 3) []);
    reflexivity.
Defined.
